(** * MultitouchSupport.h: the declaration surface of the private
      multitouch framework, as used by TrackPal.

    The header contains no function bodies: it consists of one opaque handle
    typedef, three struct typedefs, two function-pointer typedefs and a list
    of function prototypes.  The development embeds the declarations as data
    (in declaration order, with the C types as written), resolves typedef
    names the way a C compiler does (a name refers to an earlier typedef),
    computes struct layouts with the usual natural-alignment algorithm, and
    states the properties of the interface over these definitions. *)

From Stdlib Require Import List String ZArith Lia Bool.
Import ListNotations.

Local Open Scope string_scope.
Local Open Scope Z_scope.

(** ** C declaration syntax *)

Module C.

(** Type expressions as they occur in declarators of the header. *)
Inductive ctype : Type :=
| Tvoid
| Tbool
| Tint
| Tfloat
| Tdouble
| Tnamed (name : string)
| Tpointer (pointee : ctype).

(** clang nullability qualifier on a declared result. *)
Inductive nullability : Type := NullUnspecified | Nullable | Nonnull.

(** Core Foundation ownership annotation on a declared result. *)
Inductive ownership : Type := NoOwnershipAnnotation | ReturnsRetained.

Definition param : Type := (string * ctype)%type.

(** The right-hand side of a [typedef]. *)
Inductive typedef_body : Type :=
| Alias (t : ctype)
| Struct (fields : list param)
| FunctionPointer (ret : ctype) (params : list param).

Record prototype : Type := mkPrototype {
  fn_ownership : ownership;
  fn_ret : ctype;
  fn_ret_null : nullability;
  fn_name : string;
  fn_params : list param
}.

Inductive decl : Type :=
| Typedef (name : string) (body : typedef_body)
| Function (p : prototype).

Fixpoint ctype_eqb (a b : ctype) : bool :=
  match a, b with
  | Tvoid, Tvoid | Tbool, Tbool | Tint, Tint
  | Tfloat, Tfloat | Tdouble, Tdouble => true
  | Tnamed n, Tnamed m => String.eqb n m
  | Tpointer x, Tpointer y => ctype_eqb x y
  | _, _ => false
  end.

Definition typedefs (h : list decl) : list (string * typedef_body) :=
  flat_map (fun d => match d with
                     | Typedef n b => [(n, b)]
                     | Function _ => []
                     end) h.

Definition prototypes (h : list decl) : list prototype :=
  flat_map (fun d => match d with
                     | Typedef _ _ => []
                     | Function p => [p]
                     end) h.

Fixpoint assoc {A : Type} (k : string) (l : list (string * A)) : option A :=
  match l with
  | [] => None
  | (k', v) :: rest => if String.eqb k k' then Some v else assoc k rest
  end.

Definition find_typedef (h : list decl) (n : string) : option typedef_body :=
  assoc n (typedefs h).

Definition find_prototype (h : list decl) (n : string) : option prototype :=
  find (fun p => String.eqb (fn_name p) n) (prototypes h).

Definition struct_fields (b : typedef_body) : list param :=
  match b with Struct fs => fs | _ => [] end.

Definition callback_params (b : typedef_body) : list param :=
  match b with FunctionPointer _ ps => ps | _ => [] end.

End C.

Import C.

(** ** The header, declaration by declaration *)

Module MultitouchSupport.

(** [typedef void *MTDeviceRef;] *)
Definition MTDeviceRef : typedef_body := Alias (Tpointer Tvoid).

(** [typedef struct { float x; float y; } MTPoint;] *)
Definition MTPoint : typedef_body :=
  Struct [ ("x", Tfloat); ("y", Tfloat) ].

(** [typedef struct { MTPoint position; MTPoint velocity; } MTVector;] *)
Definition MTVector : typedef_body :=
  Struct [ ("position", Tnamed "MTPoint"); ("velocity", Tnamed "MTPoint") ].

(** [typedef struct { ... } MTTouch;] *)
Definition MTTouch : typedef_body :=
  Struct [ ("frame", Tint);
           ("timestamp", Tdouble);
           ("identifier", Tint);
           ("state", Tint);
           ("fingerId", Tint);
           ("handId", Tint);
           ("normalized", Tnamed "MTVector");
           ("size", Tfloat);
           ("zero1", Tint);
           ("angle", Tfloat);
           ("majorAxis", Tfloat);
           ("minorAxis", Tfloat);
           ("absoluteVector", Tnamed "MTVector");
           ("zero2", Tint);
           ("zero3", Tint);
           ("density", Tfloat) ].

(** The typedef of the pointer type [MTContactCallbackFunction]: a pointer
    to a function returning [void] with parameters [MTDeviceRef device],
    [MTTouch *touches], [int numTouches], [double timestamp], [int frame]. *)
Definition MTContactCallbackFunction : typedef_body :=
  FunctionPointer Tvoid
    [ ("device", Tnamed "MTDeviceRef");
      ("touches", Tpointer (Tnamed "MTTouch"));
      ("numTouches", Tint);
      ("timestamp", Tdouble);
      ("frame", Tint) ].

(** The typedef of the pointer type [MTContactCallbackFunctionWithRefcon]:
    as above, with a sixth parameter [void *refcon]. *)
Definition MTContactCallbackFunctionWithRefcon : typedef_body :=
  FunctionPointer Tvoid
    [ ("device", Tnamed "MTDeviceRef");
      ("touches", Tpointer (Tnamed "MTTouch"));
      ("numTouches", Tint);
      ("timestamp", Tdouble);
      ("frame", Tint);
      ("refcon", Tpointer Tvoid) ].

(** [CF_RETURNS_RETAINED CFArrayRef _Nullable MTDeviceCreateList(void);] *)
Definition MTDeviceCreateList : prototype :=
  mkPrototype ReturnsRetained (Tnamed "CFArrayRef") Nullable
    "MTDeviceCreateList" [].

Definition MTRegisterContactFrameCallback : prototype :=
  mkPrototype NoOwnershipAnnotation Tvoid NullUnspecified
    "MTRegisterContactFrameCallback"
    [ ("device", Tnamed "MTDeviceRef");
      ("callback", Tnamed "MTContactCallbackFunction") ].

Definition MTUnregisterContactFrameCallback : prototype :=
  mkPrototype NoOwnershipAnnotation Tvoid NullUnspecified
    "MTUnregisterContactFrameCallback"
    [ ("device", Tnamed "MTDeviceRef");
      ("callback", Tnamed "MTContactCallbackFunction") ].

Definition MTRegisterContactFrameCallbackWithRefcon : prototype :=
  mkPrototype NoOwnershipAnnotation Tvoid NullUnspecified
    "MTRegisterContactFrameCallbackWithRefcon"
    [ ("device", Tnamed "MTDeviceRef");
      ("callback", Tnamed "MTContactCallbackFunctionWithRefcon");
      ("refcon", Tpointer Tvoid) ].

Definition MTDeviceStart : prototype :=
  mkPrototype NoOwnershipAnnotation Tvoid NullUnspecified
    "MTDeviceStart"
    [ ("device", Tnamed "MTDeviceRef"); ("mode", Tint) ].

Definition MTDeviceStop : prototype :=
  mkPrototype NoOwnershipAnnotation Tvoid NullUnspecified
    "MTDeviceStop"
    [ ("device", Tnamed "MTDeviceRef") ].

Definition MTDeviceIsRunning : prototype :=
  mkPrototype NoOwnershipAnnotation Tbool NullUnspecified
    "MTDeviceIsRunning"
    [ ("device", Tnamed "MTDeviceRef") ].

Definition MTDeviceGetDeviceID : prototype :=
  mkPrototype NoOwnershipAnnotation Tint NullUnspecified
    "MTDeviceGetDeviceID"
    [ ("device", Tnamed "MTDeviceRef") ].

Definition MTDeviceGetFamilyID : prototype :=
  mkPrototype NoOwnershipAnnotation Tint NullUnspecified
    "MTDeviceGetFamilyID"
    [ ("device", Tnamed "MTDeviceRef") ].

Definition MTDeviceIsBuiltIn : prototype :=
  mkPrototype NoOwnershipAnnotation Tbool NullUnspecified
    "MTDeviceIsBuiltIn"
    [ ("device", Tnamed "MTDeviceRef") ].

Definition MTDeviceGetSensorSurfaceDimensions : prototype :=
  mkPrototype NoOwnershipAnnotation (Tnamed "OSStatus") NullUnspecified
    "MTDeviceGetSensorSurfaceDimensions"
    [ ("device", Tnamed "MTDeviceRef");
      ("width", Tpointer Tint);
      ("height", Tpointer Tint) ].

(** The translation unit between the include guards, in source order.
    [CFArrayRef], [OSStatus] and [bool] come from the imported Foundation
    umbrella header; the first two stay unresolved names here. *)
Definition MultitouchSupport_h : list decl :=
  [ Typedef "MTDeviceRef" MTDeviceRef;
    Typedef "MTPoint" MTPoint;
    Typedef "MTVector" MTVector;
    Typedef "MTTouch" MTTouch;
    Typedef "MTContactCallbackFunction" MTContactCallbackFunction;
    Typedef "MTContactCallbackFunctionWithRefcon"
            MTContactCallbackFunctionWithRefcon;
    Function MTDeviceCreateList;
    Function MTRegisterContactFrameCallback;
    Function MTUnregisterContactFrameCallback;
    Function MTRegisterContactFrameCallbackWithRefcon;
    Function MTDeviceStart;
    Function MTDeviceStop;
    Function MTDeviceIsRunning;
    Function MTDeviceGetDeviceID;
    Function MTDeviceGetFamilyID;
    Function MTDeviceIsBuiltIn;
    Function MTDeviceGetSensorSurfaceDimensions ].

End MultitouchSupport.

Import MultitouchSupport.

(** ** Typedef resolution, slots and result shapes *)

Module Interface.

(** Follows [Alias] typedefs of the header down to the underlying type.  A C
    typedef can only name an earlier one, so as many steps as there are
    typedefs suffice. *)
Fixpoint resolve (fuel : nat) (h : list decl) (t : ctype) : ctype :=
  match fuel with
  | O => t
  | S k =>
      match t with
      | Tnamed n =>
          match find_typedef h n with
          | Some (Alias t') => resolve k h t'
          | _ => t
          end
      | _ => t
      end
  end.

Definition canonical (h : list decl) (t : ctype) : ctype :=
  resolve (List.length (typedefs h)) h t.

(** A place of the interface that carries a value: a struct field, a
    parameter of a callback type or of a function, or a declared result. *)
Inductive slot_kind : Type := FieldSlot | ParamSlot | ResultSlot.

Record slot : Type := mkSlot {
  s_owner : string;
  s_kind : slot_kind;
  s_name : string;
  s_type : ctype
}.

Definition param_slots (owner : string) (k : slot_kind) (ps : list param)
  : list slot :=
  map (fun p => mkSlot owner k (fst p) (snd p)) ps.

Definition slots_of_decl (d : decl) : list slot :=
  match d with
  | Typedef _ (Alias _) => []
  | Typedef n (Struct fs) => param_slots n FieldSlot fs
  | Typedef n (FunctionPointer r ps) =>
      mkSlot n ResultSlot "" r :: param_slots n ParamSlot ps
  | Function p =>
      mkSlot (fn_name p) ResultSlot "" (fn_ret p)
        :: param_slots (fn_name p) ParamSlot (fn_params p)
  end.

Definition slots (h : list decl) : list slot := flat_map slots_of_decl h.

Definition slots_named (h : list decl) (names : list string) : list slot :=
  filter (fun s => existsb (String.eqb (s_name s)) names) (slots h).

Definition results_of (h : list decl) (owners : list string) : list slot :=
  filter (fun s => match s_kind s with
                   | ResultSlot => existsb (String.eqb (s_owner s)) owners
                   | _ => false
                   end) (slots h).

(** What a caller can get back from a call, as far as the declaration says. *)
Inductive result_shape : Type :=
| NoResult
| Always (t : ctype)
| Optional (t : ctype).

Definition result_of (p : prototype) : result_shape :=
  match fn_ret p with
  | Tvoid => NoResult
  | t => match fn_ret_null p with
         | Nullable => Optional t
         | _ => Always t
         end
  end.

(** The two ways a declared result can report failure. *)
Inductive failure_channel : Type := AbsentResult | StatusCode.

Definition failure_channel_of (p : prototype) : option failure_channel :=
  match fn_ret_null p with
  | Nullable => Some AbsentResult
  | _ => if ctype_eqb (fn_ret p) (Tnamed "OSStatus")
         then Some StatusCode else None
  end.

Definition has_failure_channel (p : prototype) : bool :=
  match failure_channel_of p with Some _ => true | None => false end.

(** Parameters through which a callee can hand data back: pointers to a
    complete object type.  The opaque [void *] handle and context, and
    pointers to functions, are not. *)
Definition is_output_location (h : list decl) (t : ctype) : bool :=
  match canonical h t with
  | Tpointer Tvoid => false
  | Tpointer _ => true
  | _ => false
  end.

Definition out_params (h : list decl) (p : prototype) : list param :=
  filter (fun q => is_output_location h (snd q)) (fn_params p).

(** Fields whose name marks them as reserved ([zero1], [zero2], ...). *)
Definition is_reserved (f : param) : bool := String.prefix "zero" (fst f).

Definition reserved_fields (b : typedef_body) : list param :=
  filter is_reserved (struct_fields b).

Definition payload_fields (b : typedef_body) : list param :=
  filter (fun f => negb (is_reserved f)) (struct_fields b).

(** The fields strictly between two named fields, in declaration order. *)
Fixpoint drop_through (n : string) (fs : list param) : list param :=
  match fs with
  | [] => []
  | f :: rest => if String.eqb (fst f) n then rest else drop_through n rest
  end.

Fixpoint take_until (n : string) (fs : list param) : list param :=
  match fs with
  | [] => []
  | f :: rest => if String.eqb (fst f) n then [] else f :: take_until n rest
  end.

Definition fields_between (a b : string) (fs : list param) : list param :=
  take_until b (drop_through a fs).

End Interface.

Import Interface.

(** ** Struct layout *)

Module Layout.

(** The scalar object kinds that occur in the header. *)
Inductive scalar : Type := Sbool | Sint | Sfloat | Sdouble | Spointer.

Inductive scalar_class : Type :=
| Boolean | SignedInteger | BinaryFloat | Address.

(** C fixes the class of each scalar ([int] is signed); its width is left to
    the platform. *)
Definition class_of (s : scalar) : scalar_class :=
  match s with
  | Sbool => Boolean
  | Sint => SignedInteger
  | Sfloat | Sdouble => BinaryFloat
  | Spointer => Address
  end.

(** Size and alignment, in bytes, of every scalar: the part of the platform
    ABI that the header relies on and does not state. *)
Record data_model : Type := mkDataModel {
  dm_size : scalar -> Z;
  dm_align : scalar -> Z
}.

(** Modelled from the spec: the scalar widths of the target platform, which
    the header takes from the compiler and does not declare.  The spec's data
    model has 32-bit floats; the 64-bit Apple platforms, the ones that ship
    the framework, have an 8-bit [bool], a 32-bit [int], a binary32 [float],
    a binary64 [double] and 64-bit pointers, all naturally aligned. *)
Definition apple_lp64 : data_model :=
  let sz := fun s => match s with
                     | Sbool => 1
                     | Sint => 4
                     | Sfloat => 4
                     | Sdouble => 8
                     | Spointer => 8
                     end in
  mkDataModel sz sz.

Definition bits (dm : data_model) (s : scalar) : Z := 8 * dm_size dm s.

Definition align_up (n a : Z) : Z := ((n + a - 1) / a) * a.

Definition member : Type := (string * Z * Z)%type.   (* name, offset, size *)
Definition leaf : Type := (string * scalar * Z)%type. (* path, kind, offset *)

Record layout : Type := mkLayout {
  size : Z;
  align : Z;
  members : list member;
  leaves : list leaf
}.

Definition scalar_layout (dm : data_model) (s : scalar) : layout :=
  mkLayout (dm_size dm s) (dm_align dm s) [] [("", s, 0)].

Definition tenv : Type := list (string * layout).

(** [void] is incomplete and has no layout; a pointer has one whatever it
    points to; a typedef name must have been laid out before its use. *)
Definition layout_of_ctype (dm : data_model) (env : tenv) (t : ctype)
  : option layout :=
  match t with
  | Tvoid => None
  | Tbool => Some (scalar_layout dm Sbool)
  | Tint => Some (scalar_layout dm Sint)
  | Tfloat => Some (scalar_layout dm Sfloat)
  | Tdouble => Some (scalar_layout dm Sdouble)
  | Tnamed n => assoc n env
  | Tpointer _ => Some (scalar_layout dm Spointer)
  end.

Definition join_path (f p : string) : string :=
  match p with
  | EmptyString => f
  | _ => f ++ "." ++ p
  end.

Definition place (f : string) (o : Z) (l : leaf) : leaf :=
  match l with (p, s, d) => (join_path f p, s, o + d) end.

(** Fields are placed in declaration order, each at the next offset that is
    a multiple of its alignment.  Returns the members, the scalar leaves, the
    end of the last member and the largest alignment met. *)
Fixpoint layout_fields (dm : data_model) (env : tenv) (fs : list param)
  (off : Z) : option (list member * list leaf * Z * Z) :=
  match fs with
  | [] => Some ([], [], off, 1)
  | (f, t) :: rest =>
      match layout_of_ctype dm env t with
      | None => None
      | Some l =>
          let o := align_up off (align l) in
          match layout_fields dm env rest (o + size l) with
          | None => None
          | Some (ms, ls, e, a) =>
              Some ((f, o, size l) :: ms,
                    (map (place f o) (leaves l) ++ ls)%list,
                    e, Z.max (align l) a)
          end
      end
  end.

Definition layout_of_struct (dm : data_model) (env : tenv) (fs : list param)
  : option layout :=
  match layout_fields dm env fs 0 with
  | None => None
  | Some (ms, ls, e, a) => Some (mkLayout (align_up e a) a ms ls)
  end.

Definition layout_of_typedef (dm : data_model) (env : tenv)
  (b : typedef_body) : option layout :=
  match b with
  | Alias t => layout_of_ctype dm env t
  | Struct fs => layout_of_struct dm env fs
  | FunctionPointer _ _ => Some (scalar_layout dm Spointer)
  end.

(** Typedefs are laid out in declaration order, each against the ones
    before it. *)
Fixpoint build_env (dm : data_model) (env : tenv)
  (tds : list (string * typedef_body)) : tenv :=
  match tds with
  | [] => env
  | (n, b) :: rest =>
      match layout_of_typedef dm env b with
      | Some l => build_env dm ((n, l) :: env) rest
      | None => build_env dm env rest
      end
  end.

Definition layout_of (dm : data_model) (h : list decl) (n : string)
  : option layout :=
  assoc n (build_env dm [] (typedefs h)).

Definition sizeof (dm : data_model) (h : list decl) (n : string) : option Z :=
  option_map size (layout_of dm h n).

Definition offsetof (dm : data_model) (h : list decl) (n f : string)
  : option Z :=
  match layout_of dm h n with
  | None => None
  | Some l => option_map fst (assoc f (map (fun m => match m with
                                                     | (x, o, s) => (x, (o, s))
                                                     end) (members l)))
  end.

(** Bytes of a struct that belong to no scalar. *)
Definition padding (dm : data_model) (l : layout) : Z :=
  size l - fold_right (fun lf acc => dm_size dm (snd (fst lf)) + acc) 0
                      (leaves l).

(** Width in bits of a slot type, when it is a scalar. *)
Definition scalar_of (h : list decl) (t : ctype) : option scalar :=
  match canonical h t with
  | Tbool => Some Sbool
  | Tint => Some Sint
  | Tfloat => Some Sfloat
  | Tdouble => Some Sdouble
  | Tpointer _ => Some Spointer
  | _ => None
  end.

(** Members follow one another from [off] on, in order and without overlap,
    and end by [e]. *)
Fixpoint packed (off : Z) (ms : list member) (e : Z) : Prop :=
  match ms with
  | [] => off <= e
  | (_, o, s) :: rest => off <= o /\ 0 <= s /\ packed (o + s) rest e
  end.

Definition wf_layout (l : layout) : Prop :=
  0 < align l /\ packed 0 (members l) (size l).

Definition wf_env (env : tenv) : Prop :=
  forall n l, assoc n env = Some l -> wf_layout l.

Definition wf_data_model (dm : data_model) : Prop :=
  forall s, 0 <= dm_size dm s /\ 0 < dm_align dm s.

(** A scalar is naturally aligned at [n] bytes: its size and its alignment
    are both [n]. *)
Definition natural (dm : data_model) (s : scalar) (n : Z) : Prop :=
  dm_size dm s = n /\ dm_align dm s = n.

Definition dm_agree (dm dm' : data_model) : Prop :=
  forall s, dm_size dm s = dm_size dm' s /\ dm_align dm s = dm_align dm' s.

(** [dm] with the scalars selected by [fixed] set to the given natural
    size; the others as [dm] has them. *)
Definition pinned (fixed : scalar -> option Z) (dm : data_model)
  : data_model :=
  let pin := fun (f : scalar -> Z) (s : scalar) =>
               match fixed s with
               | Some n => n
               | None => f s
               end in
  mkDataModel (pin (dm_size dm)) (pin (dm_align dm)).

Definition respects (dm : data_model) (fixed : scalar -> option Z) : Prop :=
  forall s n, fixed s = Some n -> natural dm s n.

(** The widths the touch record relies on. *)
Definition arith_widths (s : scalar) : option Z :=
  match s with
  | Sint | Sfloat => Some 4
  | Sdouble => Some 8
  | _ => None
  end.

Definition float_width (s : scalar) : option Z :=
  match s with
  | Sfloat => Some 4
  | _ => None
  end.

End Layout.

Import Layout.

(** ** Uses of type names *)

Module Usage.

(** The type names a type expression mentions: the names that are not
    keywords of the language.  [void], [int], [float] and [double] are
    keywords; [bool] is not: it is a name that the import provides (a macro
    of [stdbool.h] for [_Bool]). *)
Fixpoint type_names (t : ctype) : list string :=
  match t with
  | Tnamed n => [n]
  | Tbool => ["bool"]
  | Tpointer p => type_names p
  | Tvoid | Tint | Tfloat | Tdouble => []
  end.

Definition param_type_names (ps : list param) : list string :=
  flat_map (fun q => type_names (snd q)) ps.

(** The typedef names a declaration mentions, left to right. *)
Definition names_used (d : decl) : list string :=
  match d with
  | Typedef _ (Alias t) => type_names t
  | Typedef _ (Struct fs) => param_type_names fs
  | Typedef _ (FunctionPointer r ps) =>
      (type_names r ++ param_type_names ps)%list
  | Function p =>
      (type_names (fn_ret p) ++ param_type_names (fn_params p))%list
  end.

(** The typedefs in scope at the [i]-th declaration: those of the
    declarations before it. *)
Definition declared_before (h : list decl) (i : nat)
  : list (string * typedef_body) :=
  typedefs (firstn i h).

(** The type names the header takes from its one import,
    [<Foundation/Foundation.h>], without declaring them: the result types of
    [MTDeviceCreateList] and [MTDeviceGetSensorSurfaceDimensions], and the
    [bool] that [MTDeviceIsRunning] and [MTDeviceIsBuiltIn] return.  (The
    annotation macro [CF_RETURNS_RETAINED] comes from the same import; it is
    not a type name.) *)
Definition imported : list string := [ "CFArrayRef"; "OSStatus"; "bool" ].

Definition mentions (n : string) (t : ctype) : bool :=
  existsb (String.eqb n) (type_names t).


Definition takes_callback (n : string) (p : prototype) : bool :=
  existsb (fun q => mentions n (snd q)) (fn_params p).

(** How a value of type [t] crosses a call: as which scalar.  A typedef of a
    function-pointer type is passed as a pointer; [void], a struct and an
    imported name are not passed as a scalar known to the header. *)
Definition passed_as (h : list decl) (t : ctype) : option scalar :=
  match canonical h t with
  | Tvoid => None
  | Tbool => Some Sbool
  | Tint => Some Sint
  | Tfloat => Some Sfloat
  | Tdouble => Some Sdouble
  | Tpointer _ => Some Spointer
  | Tnamed n =>
      match find_typedef h n with
      | Some (FunctionPointer _ _) => Some Spointer
      | _ => None
      end
  end.

End Usage.

Import Usage.

(** A data model that differs from [apple_lp64] in one point: a [double] is
    aligned to 4 bytes, the way 32-bit x86 conventions place it inside a
    struct. *)
Definition double_aligned_4 : data_model :=
  mkDataModel (dm_size apple_lp64)
              (fun s => match s with
                        | Sdouble => 4
                        | _ => dm_align apple_lp64 s
                        end).

(** * Properties *)

(** ** The declaration syntax and the layout algorithm *)

Lemma ctype_eqb_eq (a b : ctype) : ctype_eqb a b = true <-> a = b.
Proof.
  revert b; induction a; destruct b; simpl; split; intro H;
    try reflexivity; try discriminate; try congruence.
  - apply String.eqb_eq in H; congruence.
  - apply String.eqb_eq; congruence.
  - apply IHa in H; congruence.
  - apply IHa; congruence.
Qed.

Lemma align_up_bounds (n a : Z) :
  0 < a -> n <= align_up n a < n + a.
Proof.
  intro Ha. unfold align_up.
  pose proof (Z.div_mod (n + a - 1) a) as E.
  pose proof (Z.mod_pos_bound (n + a - 1) a Ha) as B.
  nia.
Qed.

Lemma align_up_multiple (n a : Z) : (a | align_up n a).
Proof. unfold align_up. exists ((n + a - 1) / a). reflexivity. Qed.

Lemma align_up_fixpoint (n a : Z) :
  0 < a -> (a | n) -> align_up n a = n.
Proof.
  intros Ha [k ->]. unfold align_up.
  replace (k * a + a - 1) with (a - 1 + k * a) by lia.
  rewrite Z.div_add by lia.
  rewrite Z.div_small by lia. lia.
Qed.

Lemma packed_end (ms : list member) :
  forall off e, packed off ms e -> off <= e.
Proof.
  induction ms as [| [[f o] sz] rest IH]; intros off e H; simpl in H.
  - exact H.
  - destruct H as (Ho & Hs & Hr). apply IH in Hr. lia.
Qed.

Lemma packed_weaken (ms : list member) :
  forall off e e', e <= e' -> packed off ms e -> packed off ms e'.
Proof.
  induction ms as [| [[f o] sz] rest IH]; intros off e e' Hle H; simpl in *.
  - lia.
  - destruct H as (Ho & Hs & Hr). repeat split; try assumption.
    eapply IH; eassumption.
Qed.

Lemma wf_layout_size (l : layout) : wf_layout l -> 0 <= size l.
Proof. intros [_ H]. apply packed_end in H. exact H. Qed.

Section LayoutFacts.

Variable dm : data_model.
Hypothesis dm_ok : wf_data_model dm.

Lemma scalar_layout_wf (s : scalar) : wf_layout (scalar_layout dm s).
Proof. unfold wf_layout; simpl. destruct (dm_ok s). split; assumption. Qed.

Lemma layout_of_ctype_wf (env : tenv) (t : ctype) (l : layout) :
  wf_env env -> layout_of_ctype dm env t = Some l -> wf_layout l.
Proof.
  intros Henv H. destruct t; simpl in H; try discriminate;
    try (injection H as <-; apply scalar_layout_wf).
  eapply Henv; eassumption.
Qed.

(** Fields never overlap and appear at increasing offsets, in the order of
    their declaration. *)
Lemma layout_fields_packed (env : tenv) (fs : list param) :
  wf_env env ->
  forall off ms ls e a,
    layout_fields dm env fs off = Some (ms, ls, e, a) ->
    packed off ms e /\ 0 < a.
Proof.
  intro Henv. induction fs as [| [f t] rest IH]; intros off ms ls e a H.
  - simpl in H. injection H as <- <- <- <-. simpl. lia.
  - simpl in H.
    destruct (layout_of_ctype dm env t) as [l |] eqn:El; [| discriminate].
    pose proof (layout_of_ctype_wf _ _ _ Henv El) as Hl.
    pose proof (wf_layout_size _ Hl) as Hs. destruct Hl as [Ha _].
    destruct (layout_fields dm env rest (align_up off (align l) + size l))
      as [[[[ms' ls'] e'] a'] |] eqn:Er; [| discriminate].
    injection H as <- <- <- <-.
    destruct (IH _ _ _ _ _ Er) as (Hp & Hpos).
    pose proof (align_up_bounds off (align l) Ha).
    simpl. repeat split; try assumption; lia.
Qed.

(** The members of a struct are its fields, by name and in order. *)
Lemma layout_fields_names (env : tenv) (fs : list param) :
  forall off ms ls e a,
    layout_fields dm env fs off = Some (ms, ls, e, a) ->
    map (fun m => fst (fst m)) ms = map fst fs.
Proof.
  induction fs as [| [f t] rest IH]; intros off ms ls e a H.
  - simpl in H. injection H as <- <- <- <-. reflexivity.
  - simpl in H.
    destruct (layout_of_ctype dm env t) as [l |]; [| discriminate].
    destruct (layout_fields dm env rest (align_up off (align l) + size l))
      as [[[[ms' ls'] e'] a'] |] eqn:Er; [| discriminate].
    injection H as <- <- <- <-. simpl. f_equal. eapply IH; eassumption.
Qed.

Lemma layout_of_typedef_wf (env : tenv) (b : typedef_body) (l : layout) :
  wf_env env -> layout_of_typedef dm env b = Some l -> wf_layout l.
Proof.
  intros Henv H. destruct b as [t | fs | r ps]; simpl in H.
  - eapply layout_of_ctype_wf; eassumption.
  - unfold layout_of_struct in H.
    destruct (layout_fields dm env fs 0) as [[[[ms ls] e] a] |] eqn:E;
      [| discriminate].
    injection H as <-.
    destruct (layout_fields_packed _ _ Henv _ _ _ _ _ E) as (Hp & Ha).
    pose proof (align_up_bounds e a Ha).
    unfold wf_layout; simpl. split; [exact Ha |].
    eapply packed_weaken; [| exact Hp]. lia.
  - injection H as <-. apply scalar_layout_wf.
Qed.

Lemma wf_env_cons (env : tenv) (n : string) (l : layout) :
  wf_env env -> wf_layout l -> wf_env ((n, l) :: env).
Proof.
  intros Henv Hl m l' H. simpl in H.
  destruct (String.eqb m n).
  - injection H as <-. exact Hl.
  - eapply Henv; eassumption.
Qed.

Lemma build_env_wf (tds : list (string * typedef_body)) :
  forall env, wf_env env -> wf_env (build_env dm env tds).
Proof.
  induction tds as [| [n b] rest IH]; intros env Henv; simpl.
  - exact Henv.
  - destruct (layout_of_typedef dm env b) as [l |] eqn:E.
    + apply IH. apply wf_env_cons; [exact Henv |].
      eapply layout_of_typedef_wf; eassumption.
    + apply IH. exact Henv.
Qed.

(** On every data model with non-negative sizes and positive alignments,
    every type a header defines has a positive alignment, and its members
    lie in declaration order, without overlap, within its size. *)
Lemma layout_of_wf (h : list decl) (n : string) (l : layout) :
  layout_of dm h n = Some l -> wf_layout l.
Proof.
  unfold layout_of. intro H.
  eapply (build_env_wf (typedefs h) []); [| eassumption].
  intros m l' Hm. discriminate.
Qed.

(** The size of a struct is a multiple of its alignment. *)
Lemma layout_of_struct_size_aligned (env : tenv) (fs : list param)
  (l : layout) :
  layout_of_struct dm env fs = Some l -> (align l | size l).
Proof.
  unfold layout_of_struct. intro H.
  destruct (layout_fields dm env fs 0) as [[[[ms ls] e] a] |];
    [| discriminate].
  injection H as <-. simpl. apply align_up_multiple.
Qed.

End LayoutFacts.

Lemma apple_lp64_wf : wf_data_model apple_lp64.
Proof. intros []; simpl; lia. Qed.

(** Every type of the header, laid out for the Apple data model, keeps its
    members in declaration order, disjoint and within its size. *)
Lemma header_layouts_wf (n : string) (l : layout) :
  layout_of apple_lp64 MultitouchSupport_h n = Some l -> wf_layout l.
Proof. apply layout_of_wf. exact apple_lp64_wf. Qed.

(** The layout depends on the data model only through the sizes and
    alignments of the scalars. *)
Section LayoutExt.

Variables dm dm' : data_model.
Hypothesis agree : dm_agree dm dm'.

Lemma scalar_layout_ext (s : scalar) :
  scalar_layout dm s = scalar_layout dm' s.
Proof.
  unfold scalar_layout. destruct (agree s) as [-> ->]. reflexivity.
Qed.

Lemma layout_of_ctype_ext (env : tenv) (t : ctype) :
  layout_of_ctype dm env t = layout_of_ctype dm' env t.
Proof.
  destruct t; simpl; try reflexivity; now rewrite scalar_layout_ext.
Qed.

Lemma layout_fields_ext (env : tenv) (fs : list param) :
  forall off, layout_fields dm env fs off = layout_fields dm' env fs off.
Proof.
  induction fs as [| [f t] rest IH]; intro off; simpl; [reflexivity |].
  rewrite layout_of_ctype_ext.
  destruct (layout_of_ctype dm' env t) as [l |]; [| reflexivity].
  now rewrite IH.
Qed.

Lemma layout_of_typedef_ext (env : tenv) (b : typedef_body) :
  layout_of_typedef dm env b = layout_of_typedef dm' env b.
Proof.
  destruct b as [t | fs | r ps]; simpl.
  - apply layout_of_ctype_ext.
  - unfold layout_of_struct. now rewrite layout_fields_ext.
  - now rewrite scalar_layout_ext.
Qed.

Lemma build_env_ext (tds : list (string * typedef_body)) :
  forall env, build_env dm env tds = build_env dm' env tds.
Proof.
  induction tds as [| [n b] rest IH]; intro env; simpl; [reflexivity |].
  rewrite layout_of_typedef_ext.
  destruct (layout_of_typedef dm' env b); apply IH.
Qed.

Lemma layout_of_ext (h : list decl) (n : string) :
  layout_of dm h n = layout_of dm' h n.
Proof. unfold layout_of. now rewrite build_env_ext. Qed.

End LayoutExt.

Lemma pinned_agree (dm : data_model) (fixed : scalar -> option Z) :
  respects dm fixed -> dm_agree dm (pinned fixed dm).
Proof.
  intros H s. simpl.
  destruct (fixed s) as [n |] eqn:E; [| split; reflexivity].
  destruct (H s n E) as [-> ->]. split; reflexivity.
Qed.

Lemma arith_widths_respected (dm : data_model) :
  natural dm Sint 4 -> natural dm Sfloat 4 -> natural dm Sdouble 8 ->
  respects dm arith_widths.
Proof.
  intros Hi Hf Hd [] n E; simpl in E; try discriminate;
    injection E as <-; assumption.
Qed.

Lemma float_width_respected (dm : data_model) :
  natural dm Sfloat 4 -> respects dm float_width.
Proof.
  intros Hf [] n E; simpl in E; try discriminate;
    injection E as <-; assumption.
Qed.

(** ** The record types *)

Ltac distinct_names :=
  repeat (constructor; [simpl; intuition discriminate |]); constructor.

Ltac layout_under H :=
  unfold sizeof, offsetof;
  rewrite ?(layout_of_ext _ _ (pinned_agree _ _ H));
  vm_compute.

(** C1: the touch-sample record [MTTouch] declares, in this order, a frame
    counter, a timestamp, a touch identifier, a state code, finger and hand
    identifiers, a normalized motion vector, a size, an angle, major and
    minor axis lengths, an absolute motion vector and a density, plus
    reserved zero fields, and nothing else; on every data model with a
    naturally aligned 4-byte [int] and [float] and 8-byte [double] each field
    has a fixed offset and width, which makes the 96-byte layout of the
    record a fixed one. *)
Theorem C1_touch_record_fields_and_layout (dm : data_model) :
  natural dm Sint 4 -> natural dm Sfloat 4 -> natural dm Sdouble 8 ->
  find_typedef MultitouchSupport_h "MTTouch" = Some MTTouch
  /\ payload_fields MTTouch =
       [ ("frame", Tint); ("timestamp", Tdouble); ("identifier", Tint);
         ("state", Tint); ("fingerId", Tint); ("handId", Tint);
         ("normalized", Tnamed "MTVector"); ("size", Tfloat);
         ("angle", Tfloat); ("majorAxis", Tfloat); ("minorAxis", Tfloat);
         ("absoluteVector", Tnamed "MTVector"); ("density", Tfloat) ]
  /\ map fst (reserved_fields MTTouch) = ["zero1"; "zero2"; "zero3"]
  /\ List.length (struct_fields MTTouch) = 16%nat
  /\ NoDup (map fst (struct_fields MTTouch))
  /\ option_map members (layout_of dm MultitouchSupport_h "MTTouch") =
       Some [ ("frame", 0, 4); ("timestamp", 8, 8); ("identifier", 16, 4);
              ("state", 20, 4); ("fingerId", 24, 4); ("handId", 28, 4);
              ("normalized", 32, 16); ("size", 48, 4); ("zero1", 52, 4);
              ("angle", 56, 4); ("majorAxis", 60, 4); ("minorAxis", 64, 4);
              ("absoluteVector", 68, 16); ("zero2", 84, 4); ("zero3", 88, 4);
              ("density", 92, 4) ]
  /\ sizeof dm MultitouchSupport_h "MTTouch" = Some 96
  /\ option_map align (layout_of dm MultitouchSupport_h "MTTouch") = Some 8.
Proof.
  intros Hi Hf Hd.
  pose proof (arith_widths_respected dm Hi Hf Hd) as H.
  repeat split; try reflexivity; try distinct_names; layout_under H;
    reflexivity.
Qed.

(** The Apple data model meets the hypotheses of C1; there the record is 96
    bytes long. *)
Lemma C1_touch_record_fields_and_layout_witness :
  natural apple_lp64 Sint 4
  /\ natural apple_lp64 Sfloat 4
  /\ natural apple_lp64 Sdouble 8
  /\ sizeof apple_lp64 MultitouchSupport_h "MTTouch" = Some 96.
Proof.
  assert (Hi : natural apple_lp64 Sint 4) by (split; reflexivity).
  assert (Hf : natural apple_lp64 Sfloat 4) by (split; reflexivity).
  assert (Hd : natural apple_lp64 Sdouble 8) by (split; reflexivity).
  split; [exact Hi |]. split; [exact Hf |]. split; [exact Hd |].
  pose proof (C1_touch_record_fields_and_layout apple_lp64 Hi Hf Hd) as H.
  destruct H as (_ & _ & _ & _ & _ & _ & H & _). exact H.
Defined.

(** C7: [MTPoint] is exactly a pair of [float]s named [x] and [y], 32 bits
    each, and [MTVector] is exactly a position [MTPoint] followed by a
    velocity [MTPoint]; neither has another field, and neither has padding:
    a point is 8 bytes, a vector is two points, 16 bytes. *)
Theorem C7_point_and_vector (dm : data_model) :
  natural dm Sfloat 4 ->
  find_typedef MultitouchSupport_h "MTPoint" = Some MTPoint
  /\ struct_fields MTPoint = [ ("x", Tfloat); ("y", Tfloat) ]
  /\ find_typedef MultitouchSupport_h "MTVector" = Some MTVector
  /\ struct_fields MTVector =
       [ ("position", Tnamed "MTPoint"); ("velocity", Tnamed "MTPoint") ]
  /\ bits dm Sfloat = 32
  /\ class_of Sfloat = BinaryFloat
  /\ layout_of dm MultitouchSupport_h "MTPoint" =
       Some (mkLayout 8 4 [ ("x", 0, 4); ("y", 4, 4) ]
                      [ ("x", Sfloat, 0); ("y", Sfloat, 4) ])
  /\ layout_of dm MultitouchSupport_h "MTVector" =
       Some (mkLayout 16 4 [ ("position", 0, 8); ("velocity", 8, 8) ]
                      [ ("position.x", Sfloat, 0); ("position.y", Sfloat, 4);
                        ("velocity.x", Sfloat, 8); ("velocity.y", Sfloat, 12) ]).
Proof.
  intro Hf.
  pose proof (float_width_respected dm Hf) as H.
  repeat split; try reflexivity.
  - unfold bits. destruct Hf as [-> _]. reflexivity.
  - layout_under H. reflexivity.
  - layout_under H. reflexivity.
Qed.

(** The Apple data model meets the hypothesis of C7; there a vector is 16
    bytes long. *)
Lemma C7_point_and_vector_witness :
  natural apple_lp64 Sfloat 4
  /\ sizeof apple_lp64 MultitouchSupport_h "MTVector" = Some 16.
Proof.
  assert (Hf : natural apple_lp64 Sfloat 4) by (split; reflexivity).
  split; [exact Hf |].
  pose proof (C7_point_and_vector apple_lp64 Hf) as H.
  unfold sizeof.
  destruct H as (_ & _ & _ & _ & _ & _ & _ & ->). reflexivity.
Defined.

(** C9: [MTTouch] has exactly three reserved fields, [zero1], [zero2] and
    [zero3], each an [int] (32 bits on the Apple data model).  They do not
    trail the record: [zero1] is the one field between [size] and [angle],
    [zero2] and [zero3] are the fields between [absoluteVector] and
    [density], and [density] is the last field, ending at the 96th byte. *)
Theorem C9_reserved_fields_interleaved :
  reserved_fields MTTouch = [ ("zero1", Tint); ("zero2", Tint); ("zero3", Tint) ]
  /\ bits apple_lp64 Sint = 32
  /\ fields_between "size" "angle" (struct_fields MTTouch) = [ ("zero1", Tint) ]
  /\ fields_between "absoluteVector" "density" (struct_fields MTTouch) =
       [ ("zero2", Tint); ("zero3", Tint) ]
  /\ last (struct_fields MTTouch) ("", Tvoid) = ("density", Tfloat)
  /\ map (offsetof apple_lp64 MultitouchSupport_h "MTTouch")
         [ "size"; "zero1"; "angle"; "absoluteVector"; "zero2"; "zero3";
           "density" ] =
       [ Some 48; Some 52; Some 56; Some 68; Some 84; Some 88; Some 92 ]
  /\ sizeof apple_lp64 MultitouchSupport_h "MTTouch" = Some (92 + 4).
Proof. repeat split; vm_compute; reflexivity. Qed.

(** ** The callback types and the function prototypes *)

(** C2, as the header has it: the declaration surface consists of exactly
    eleven function prototypes, with pairwise distinct names. *)
Theorem C2_eleven_prototypes :
  map fn_name (prototypes MultitouchSupport_h) =
    [ "MTDeviceCreateList";
      "MTRegisterContactFrameCallback";
      "MTUnregisterContactFrameCallback";
      "MTRegisterContactFrameCallbackWithRefcon";
      "MTDeviceStart";
      "MTDeviceStop";
      "MTDeviceIsRunning";
      "MTDeviceGetDeviceID";
      "MTDeviceGetFamilyID";
      "MTDeviceIsBuiltIn";
      "MTDeviceGetSensorSurfaceDimensions" ]
  /\ List.length (prototypes MultitouchSupport_h) = 11%nat
  /\ NoDup (map fn_name (prototypes MultitouchSupport_h)).
Proof.
  split; [reflexivity |]. split; [reflexivity |].
  simpl. distinct_names.
Qed.

(** C2 as stated fails: the number of function prototypes is not nine. *)
Lemma C2_not_nine_prototypes :
  List.length (prototypes MultitouchSupport_h) <> 9%nat.
Proof. simpl. discriminate. Qed.

(** C3: exactly two prototypes have a failure channel: [MTDeviceCreateList],
    whose result may be absent, and [MTDeviceGetSensorSurfaceDimensions],
    which returns a status code.  Each of the other nine returns nothing, a
    [bool] or an [int], and has no output parameter; among them
    [MTDeviceStart] and [MTDeviceStop] return nothing, so that a caller can
    observe no failure of theirs. *)
Theorem C3_failure_channels :
  map (fun p => (fn_name p, failure_channel_of p))
      (filter has_failure_channel (prototypes MultitouchSupport_h)) =
    [ ("MTDeviceCreateList", Some AbsentResult);
      ("MTDeviceGetSensorSurfaceDimensions", Some StatusCode) ]
  /\ map (fun p => (fn_name p, result_of p, out_params MultitouchSupport_h p))
         (filter (fun p => negb (has_failure_channel p))
                 (prototypes MultitouchSupport_h)) =
       [ ("MTRegisterContactFrameCallback", NoResult, []);
         ("MTUnregisterContactFrameCallback", NoResult, []);
         ("MTRegisterContactFrameCallbackWithRefcon", NoResult, []);
         ("MTDeviceStart", NoResult, []);
         ("MTDeviceStop", NoResult, []);
         ("MTDeviceIsRunning", Always Tbool, []);
         ("MTDeviceGetDeviceID", Always Tint, []);
         ("MTDeviceGetFamilyID", Always Tint, []);
         ("MTDeviceIsBuiltIn", Always Tbool, []) ]
  /\ failure_channel_of MTDeviceStart = None
  /\ failure_channel_of MTDeviceStop = None
  /\ out_params MultitouchSupport_h MTDeviceGetSensorSurfaceDimensions =
       [ ("width", Tpointer Tint); ("height", Tpointer Tint) ].
Proof. repeat split. Qed.

(** C5: [MTContactCallbackFunction] takes exactly five parameters: the
    device handle, the array of touch samples, the count, the timestamp and
    the frame number, in this order; [MTContactCallbackFunctionWithRefcon]
    takes the same five followed by one opaque [void *] context.  Both return
    nothing.  The register functions take the device handle and a callback of
    the matching type, the context variant also the context pointer. *)
Theorem C5_callback_shapes :
  find_typedef MultitouchSupport_h "MTContactCallbackFunction"
    = Some MTContactCallbackFunction
  /\ find_typedef MultitouchSupport_h "MTContactCallbackFunctionWithRefcon"
    = Some MTContactCallbackFunctionWithRefcon
  /\ callback_params MTContactCallbackFunction =
       [ ("device", Tnamed "MTDeviceRef");
         ("touches", Tpointer (Tnamed "MTTouch"));
         ("numTouches", Tint);
         ("timestamp", Tdouble);
         ("frame", Tint) ]
  /\ callback_params MTContactCallbackFunctionWithRefcon =
       (callback_params MTContactCallbackFunction
          ++ [ ("refcon", Tpointer Tvoid) ])%list
  /\ (exists ps, MTContactCallbackFunction = FunctionPointer Tvoid ps)
  /\ (exists ps, MTContactCallbackFunctionWithRefcon = FunctionPointer Tvoid ps)
  /\ canonical MultitouchSupport_h (Tnamed "MTDeviceRef") = Tpointer Tvoid
  /\ find_typedef MultitouchSupport_h "MTTouch" = Some MTTouch
  /\ find_prototype MultitouchSupport_h "MTRegisterContactFrameCallback"
    = Some MTRegisterContactFrameCallback
  /\ fn_params MTRegisterContactFrameCallback =
       [ ("device", Tnamed "MTDeviceRef");
         ("callback", Tnamed "MTContactCallbackFunction") ]
  /\ find_prototype MultitouchSupport_h
       "MTRegisterContactFrameCallbackWithRefcon"
    = Some MTRegisterContactFrameCallbackWithRefcon
  /\ fn_params MTRegisterContactFrameCallbackWithRefcon =
       [ ("device", Tnamed "MTDeviceRef");
         ("callback", Tnamed "MTContactCallbackFunctionWithRefcon");
         ("refcon", Tpointer Tvoid) ].
Proof.
  repeat split; try reflexivity; eexists; reflexivity.
Qed.

(** C8: [MTDeviceStart] takes the device handle and one [int] mode, a plain
    integer that no typedef or enumeration of the header restricts;
    [MTDeviceStop] takes the device handle alone; both return nothing. *)
Theorem C8_start_and_stop_signatures :
  find_prototype MultitouchSupport_h "MTDeviceStart" = Some MTDeviceStart
  /\ fn_params MTDeviceStart =
       [ ("device", Tnamed "MTDeviceRef"); ("mode", Tint) ]
  /\ result_of MTDeviceStart = NoResult
  /\ find_prototype MultitouchSupport_h "MTDeviceStop" = Some MTDeviceStop
  /\ fn_params MTDeviceStop = [ ("device", Tnamed "MTDeviceRef") ]
  /\ result_of MTDeviceStop = NoResult
  /\ canonical MultitouchSupport_h (Tnamed "MTDeviceRef") = Tpointer Tvoid
  /\ map fn_name
       (filter (fun p => existsb (fun q => String.eqb (fst q) "mode")
                                 (fn_params p))
               (prototypes MultitouchSupport_h)) = [ "MTDeviceStart" ].
Proof. repeat split. Qed.

(** C10: the three timestamps of the interface (the field of [MTTouch] and
    the parameter of either callback type) are [double]s, 64 bits wide; the
    frame numbers, the touch, finger and hand identifiers, the state code,
    the touch count and the mode are [int]s, the device and family
    identifiers are returned as [int], the width and the height are written
    through [int *]; an [int] is a signed integer 32 bits wide. *)
Theorem C10_timestamps_and_counters :
  map (fun s => (s_owner s, s_type s))
      (slots_named MultitouchSupport_h [ "timestamp" ]) =
    [ ("MTTouch", Tdouble);
      ("MTContactCallbackFunction", Tdouble);
      ("MTContactCallbackFunctionWithRefcon", Tdouble) ]
  /\ bits apple_lp64 Sdouble = 64
  /\ class_of Sdouble = BinaryFloat
  /\ map (fun s => (s_owner s, s_name s, s_type s))
         (slots_named MultitouchSupport_h
            [ "frame"; "identifier"; "fingerId"; "handId"; "state";
              "numTouches"; "mode" ]) =
       [ ("MTTouch", "frame", Tint);
         ("MTTouch", "identifier", Tint);
         ("MTTouch", "state", Tint);
         ("MTTouch", "fingerId", Tint);
         ("MTTouch", "handId", Tint);
         ("MTContactCallbackFunction", "numTouches", Tint);
         ("MTContactCallbackFunction", "frame", Tint);
         ("MTContactCallbackFunctionWithRefcon", "numTouches", Tint);
         ("MTContactCallbackFunctionWithRefcon", "frame", Tint);
         ("MTDeviceStart", "mode", Tint) ]
  /\ map (fun s => (s_owner s, s_type s))
         (results_of MultitouchSupport_h
            [ "MTDeviceGetDeviceID"; "MTDeviceGetFamilyID" ]) =
       [ ("MTDeviceGetDeviceID", Tint); ("MTDeviceGetFamilyID", Tint) ]
  /\ map (fun s => (s_owner s, s_name s, s_type s))
         (slots_named MultitouchSupport_h [ "width"; "height" ]) =
       [ ("MTDeviceGetSensorSurfaceDimensions", "width", Tpointer Tint);
         ("MTDeviceGetSensorSurfaceDimensions", "height", Tpointer Tint) ]
  /\ bits apple_lp64 Sint = 32
  /\ class_of Sint = SignedInteger.
Proof. repeat split. Qed.

(** ** Beyond the single declarations: layouts on every data model *)

Ltac symbolic_layout :=
  lazy -[Z.add Z.mul Z.div Z.sub Z.max Z.divide Z.lt Z.le dm_size dm_align
         align_up packed].

(** X1: on every data model with non-negative sizes and positive alignments,
    each of the three structs of the header has a layout; its members are
    the declared fields, by name and in declaration order; they follow one
    another without overlap inside the struct; and the size of the struct is
    a multiple of its alignment, so that the elements of an array of touches
    stay aligned. *)
Theorem X1_struct_layouts_on_every_data_model
  (dm : data_model) (n : string) (b : typedef_body) :
  wf_data_model dm ->
  In (n, b) [ ("MTPoint", MTPoint); ("MTVector", MTVector);
              ("MTTouch", MTTouch) ] ->
  exists l,
    layout_of dm MultitouchSupport_h n = Some l
    /\ map (fun m => fst (fst m)) (members l) = map fst (struct_fields b)
    /\ packed 0 (members l) (size l)
    /\ 0 < align l
    /\ (align l | size l).
Proof.
  intros Hdm Hin.
  assert (E : exists l, layout_of dm MultitouchSupport_h n = Some l
                 /\ map (fun m => fst (fst m)) (members l)
                    = map fst (struct_fields b)
                 /\ (align l | size l)).
  { simpl in Hin.
    destruct Hin as [H | [H | [H | []]]]; injection H as <- <-;
      (eexists; split; [symbolic_layout; reflexivity |]);
      (split; [reflexivity | apply align_up_multiple]). }
  destruct E as (l & El & Hn & Hd).
  destruct (layout_of_wf dm Hdm _ _ _ El) as [Ha Hp].
  exists l. repeat split; assumption.
Qed.

(** The Apple data model and the touch record meet the hypotheses of X1. *)
Lemma X1_struct_layouts_on_every_data_model_witness :
  wf_data_model apple_lp64
  /\ In ("MTTouch", MTTouch)
        [ ("MTPoint", MTPoint); ("MTVector", MTVector); ("MTTouch", MTTouch) ]
  /\ exists l,
       layout_of apple_lp64 MultitouchSupport_h "MTTouch" = Some l
       /\ map (fun m => fst (fst m)) (members l)
          = map fst (struct_fields MTTouch)
       /\ packed 0 (members l) (size l)
       /\ 0 < align l
       /\ (align l | size l).
Proof.
  assert (Hin : In ("MTTouch", MTTouch)
                   [ ("MTPoint", MTPoint); ("MTVector", MTVector);
                     ("MTTouch", MTTouch) ])
    by (simpl; tauto).
  split; [exact apple_lp64_wf |]. split; [exact Hin |].
  exact (X1_struct_layouts_on_every_data_model
           apple_lp64 "MTTouch" MTTouch apple_lp64_wf Hin).
Defined.

(** X2: whatever the data model, a touch record consists of 22 scalars: the
    frame number, the timestamp, the touch identifier, the state code, the
    finger and hand identifiers, the four floats of each motion vector, five
    more floats and the three reserved integers.
    None of them is a pointer or a boolean: a touch record refers to no
    other memory, and a byte copy of it is a complete copy. *)
Theorem X2_touch_record_is_plain_data (dm : data_model) :
  exists l,
    layout_of dm MultitouchSupport_h "MTTouch" = Some l
    /\ map (fun lf => (fst (fst lf), snd (fst lf))) (leaves l) =
         [ ("frame", Sint); ("timestamp", Sdouble); ("identifier", Sint);
           ("state", Sint); ("fingerId", Sint); ("handId", Sint);
           ("normalized.position.x", Sfloat);
           ("normalized.position.y", Sfloat);
           ("normalized.velocity.x", Sfloat);
           ("normalized.velocity.y", Sfloat);
           ("size", Sfloat); ("zero1", Sint); ("angle", Sfloat);
           ("majorAxis", Sfloat); ("minorAxis", Sfloat);
           ("absoluteVector.position.x", Sfloat);
           ("absoluteVector.position.y", Sfloat);
           ("absoluteVector.velocity.x", Sfloat);
           ("absoluteVector.velocity.y", Sfloat);
           ("zero2", Sint); ("zero3", Sint); ("density", Sfloat) ]
    /\ Forall (fun lf => class_of (snd (fst lf)) <> Address
                         /\ class_of (snd (fst lf)) <> Boolean) (leaves l).
Proof.
  eexists. split; [symbolic_layout; reflexivity |].
  split; [reflexivity |].
  repeat (constructor; [simpl; split; discriminate |]). constructor.
Qed.

(** X3: with a naturally aligned 4-byte [int] and [float] and 8-byte
    [double], the touch record holds exactly 4 bytes that belong to no
    field, those between [frame], which ends at byte 4, and [timestamp],
    which starts at byte 8; points and vectors hold none. *)
Theorem X3_touch_record_padding (dm : data_model) :
  natural dm Sint 4 -> natural dm Sfloat 4 -> natural dm Sdouble 8 ->
  option_map (padding dm) (layout_of dm MultitouchSupport_h "MTTouch")
    = Some 4
  /\ option_map (padding dm) (layout_of dm MultitouchSupport_h "MTVector")
    = Some 0
  /\ option_map (padding dm) (layout_of dm MultitouchSupport_h "MTPoint")
    = Some 0
  /\ offsetof dm MultitouchSupport_h "MTTouch" "frame" = Some 0
  /\ offsetof dm MultitouchSupport_h "MTTouch" "timestamp" = Some (0 + 4 + 4).
Proof.
  intros [Hi Hi'] [Hf Hf'] [Hd Hd'].
  repeat split; symbolic_layout; rewrite ?Hi, ?Hi', ?Hf, ?Hf', ?Hd, ?Hd';
    reflexivity.
Qed.

(** The Apple data model meets the hypotheses of X3. *)
Lemma X3_touch_record_padding_witness :
  natural apple_lp64 Sint 4
  /\ natural apple_lp64 Sfloat 4
  /\ natural apple_lp64 Sdouble 8
  /\ option_map (padding apple_lp64)
                (layout_of apple_lp64 MultitouchSupport_h "MTTouch") = Some 4.
Proof.
  assert (Hi : natural apple_lp64 Sint 4) by (split; reflexivity).
  assert (Hf : natural apple_lp64 Sfloat 4) by (split; reflexivity).
  assert (Hd : natural apple_lp64 Sdouble 8) by (split; reflexivity).
  split; [exact Hi |]. split; [exact Hf |]. split; [exact Hd |].
  exact (proj1 (X3_touch_record_padding apple_lp64 Hi Hf Hd)).
Defined.

(** X4: the declaration alone does not fix the layout.  Where a [double] is
    8 bytes long but aligned to 4, the same declaration gives a record of 92
    bytes without padding, aligned to 4, whose [timestamp] lies at byte 4
    and whose later fields all lie 4 bytes earlier than in the 96-byte
    layout. *)
Theorem X4_touch_record_with_4_aligned_double (dm : data_model) :
  natural dm Sint 4 -> natural dm Sfloat 4 ->
  dm_size dm Sdouble = 8 -> dm_align dm Sdouble = 4 ->
  sizeof dm MultitouchSupport_h "MTTouch" = Some 92
  /\ option_map align (layout_of dm MultitouchSupport_h "MTTouch") = Some 4
  /\ option_map (padding dm) (layout_of dm MultitouchSupport_h "MTTouch")
    = Some 0
  /\ option_map members (layout_of dm MultitouchSupport_h "MTTouch") =
       Some [ ("frame", 0, 4); ("timestamp", 4, 8); ("identifier", 12, 4);
              ("state", 16, 4); ("fingerId", 20, 4); ("handId", 24, 4);
              ("normalized", 28, 16); ("size", 44, 4); ("zero1", 48, 4);
              ("angle", 52, 4); ("majorAxis", 56, 4); ("minorAxis", 60, 4);
              ("absoluteVector", 64, 16); ("zero2", 80, 4); ("zero3", 84, 4);
              ("density", 88, 4) ].
Proof.
  intros [Hi Hi'] [Hf Hf'] Hd Hd'.
  repeat split; symbolic_layout; rewrite ?Hi, ?Hi', ?Hf, ?Hf', ?Hd, ?Hd';
    reflexivity.
Qed.

(** [double_aligned_4] meets the hypotheses of X4. *)
Lemma X4_touch_record_with_4_aligned_double_witness :
  natural double_aligned_4 Sint 4
  /\ natural double_aligned_4 Sfloat 4
  /\ dm_size double_aligned_4 Sdouble = 8
  /\ dm_align double_aligned_4 Sdouble = 4
  /\ sizeof double_aligned_4 MultitouchSupport_h "MTTouch" = Some 92.
Proof.
  assert (Hi : natural double_aligned_4 Sint 4) by (split; reflexivity).
  assert (Hf : natural double_aligned_4 Sfloat 4) by (split; reflexivity).
  split; [exact Hi |]. split; [exact Hf |].
  split; [reflexivity |]. split; [reflexivity |].
  exact (proj1 (X4_touch_record_with_4_aligned_double
                  double_aligned_4 Hi Hf eq_refl eq_refl)).
Defined.

(** ** Beyond the single declarations: how the types are used *)



(** X6: a context-carrying callback is accepted by one function only, the
    one that registers it: the header declares no function to unregister
    such a callback. *)
Theorem X6_refcon_callback_is_only_registered (p : prototype) :
  In p (prototypes MultitouchSupport_h) ->
  takes_callback "MTContactCallbackFunctionWithRefcon" p = true ->
  p = MTRegisterContactFrameCallbackWithRefcon.
Proof.
  intros Hin Ht. simpl in Hin.
  repeat (destruct Hin as [<- | Hin];
          [first [ discriminate Ht | reflexivity ] |]).
  contradiction.
Qed.

(** The registering function meets the hypotheses of X6. *)
Lemma X6_refcon_callback_is_only_registered_witness :
  In MTRegisterContactFrameCallbackWithRefcon
     (prototypes MultitouchSupport_h)
  /\ takes_callback "MTContactCallbackFunctionWithRefcon"
                    MTRegisterContactFrameCallbackWithRefcon = true
  /\ MTRegisterContactFrameCallbackWithRefcon
     = MTRegisterContactFrameCallbackWithRefcon.
Proof.
  assert (Hin : In MTRegisterContactFrameCallbackWithRefcon
                   (prototypes MultitouchSupport_h))
    by (simpl; tauto).
  split; [exact Hin |]. split; [reflexivity |].
  exact (X6_refcon_callback_is_only_registered
           MTRegisterContactFrameCallbackWithRefcon Hin eq_refl).
Defined.

(** X7: a simple callback is accepted by two functions only, the one that
    registers it and the one that unregisters it, and the two have the same
    parameter list and return nothing: what was passed to register a
    callback can be passed as it is to unregister it. *)
Theorem X7_simple_callback_register_unregister (p : prototype) :
  In p (prototypes MultitouchSupport_h) ->
  takes_callback "MTContactCallbackFunction" p = true ->
  (p = MTRegisterContactFrameCallback
   \/ p = MTUnregisterContactFrameCallback)
  /\ fn_params p = fn_params MTRegisterContactFrameCallback
  /\ fn_params p = fn_params MTUnregisterContactFrameCallback
  /\ result_of p = NoResult.
Proof.
  intros Hin Ht. simpl in Hin.
  repeat (destruct Hin as [<- | Hin];
          [first [ discriminate Ht | repeat split; auto ] |]).
  contradiction.
Qed.

(** The unregistering function meets the hypotheses of X7. *)
Lemma X7_simple_callback_register_unregister_witness :
  In MTUnregisterContactFrameCallback (prototypes MultitouchSupport_h)
  /\ takes_callback "MTContactCallbackFunction"
                    MTUnregisterContactFrameCallback = true
  /\ fn_params MTUnregisterContactFrameCallback
     = fn_params MTRegisterContactFrameCallback.
Proof.
  assert (Hin : In MTUnregisterContactFrameCallback
                   (prototypes MultitouchSupport_h))
    by (simpl; tauto).
  split; [exact Hin |]. split; [reflexivity |].
  exact (proj1 (proj2 (X7_simple_callback_register_unregister
                         MTUnregisterContactFrameCallback Hin eq_refl))).
Defined.

(** X8: every type name a declaration of the header mentions is either one
    of the three names taken from the import, [CFArrayRef], [OSStatus] and
    [bool], or the name of a typedef that an earlier declaration of the
    header introduces; the typedef in scope at the use is the one the whole
    header gives that name. *)
Theorem X8_names_are_declared_before_use
  (i : nat) (d : decl) (n : string) :
  nth_error MultitouchSupport_h i = Some d ->
  In n (names_used d) ->
  In n imported
  \/ exists b, assoc n (declared_before MultitouchSupport_h i) = Some b
               /\ find_typedef MultitouchSupport_h n = Some b.
Proof.
  intros Hd Hn.
  do 17 (destruct i as [| i];
         [ injection Hd as <-; simpl in Hn;
           repeat (destruct Hn as [<- | Hn];
                   [ first [ left; simpl; tauto
                           | right; eexists; split; reflexivity ] |]);
           contradiction |]).
  destruct i; discriminate Hd.
Qed.

(** The fourth declaration, of [MTTouch], mentions [MTVector], declared as
    the third. *)
Lemma X8_names_are_declared_before_use_witness :
  nth_error MultitouchSupport_h 3 = Some (Typedef "MTTouch" MTTouch)
  /\ In "MTVector" (names_used (Typedef "MTTouch" MTTouch))
  /\ (In "MTVector" imported
      \/ exists b,
           assoc "MTVector" (declared_before MultitouchSupport_h 3) = Some b
           /\ find_typedef MultitouchSupport_h "MTVector" = Some b).
Proof.
  assert (Hn : In "MTVector" (names_used (Typedef "MTTouch" MTTouch)))
    by (simpl; tauto).
  split; [reflexivity |]. split; [exact Hn |].
  exact (X8_names_are_declared_before_use
           3 (Typedef "MTTouch" MTTouch) "MTVector" eq_refl Hn).
Defined.

(** X9: touch records reach the caller in one way only: as the [touches]
    parameter of the two callback types, behind a pointer.  No function of
    the header takes or returns a touch record, and no struct has one as a
    field. *)
Theorem X9_touch_records_only_reach_callbacks (s : slot) :
  In s (slots MultitouchSupport_h) ->
  mentions "MTTouch" (s_type s) = true ->
  s_kind s = ParamSlot
  /\ s_name s = "touches"
  /\ s_type s = Tpointer (Tnamed "MTTouch")
  /\ (s_owner s = "MTContactCallbackFunction"
      \/ s_owner s = "MTContactCallbackFunctionWithRefcon").
Proof.
  intros Hin Hm. simpl in Hin.
  repeat (destruct Hin as [<- | Hin];
          [first [ discriminate Hm | simpl; auto ] |]).
  contradiction.
Qed.

(** The [touches] parameter of the simple callback type meets the hypotheses
    of X9. *)
Lemma X9_touch_records_only_reach_callbacks_witness :
  In (mkSlot "MTContactCallbackFunction" ParamSlot "touches"
             (Tpointer (Tnamed "MTTouch")))
     (slots MultitouchSupport_h)
  /\ mentions "MTTouch" (Tpointer (Tnamed "MTTouch")) = true
  /\ s_kind (mkSlot "MTContactCallbackFunction" ParamSlot "touches"
                    (Tpointer (Tnamed "MTTouch"))) = ParamSlot.
Proof.
  assert (Hin : In (mkSlot "MTContactCallbackFunction" ParamSlot "touches"
                           (Tpointer (Tnamed "MTTouch")))
                   (slots MultitouchSupport_h))
    by (simpl; tauto).
  split; [exact Hin |]. split; [reflexivity |].
  exact (proj1 (X9_touch_records_only_reach_callbacks _ Hin eq_refl)).
Defined.

(** X10: no struct is passed to a call by value.  Each parameter of each
    function and of each callback type is passed as an [int], a [double] or
    a pointer. *)
Theorem X10_parameters_are_scalars (s : slot) :
  In s (slots MultitouchSupport_h) ->
  s_kind s = ParamSlot ->
  passed_as MultitouchSupport_h (s_type s) = Some Sint
  \/ passed_as MultitouchSupport_h (s_type s) = Some Sdouble
  \/ passed_as MultitouchSupport_h (s_type s) = Some Spointer.
Proof.
  intros Hin Hk. simpl in Hin.
  repeat (destruct Hin as [<- | Hin];
          [first [ discriminate Hk | vm_compute; tauto ] |]).
  contradiction.
Qed.

(** The [callback] parameter of the registering function meets the
    hypotheses of X10: it is passed as a pointer. *)
Lemma X10_parameters_are_scalars_witness :
  In (mkSlot "MTRegisterContactFrameCallback" ParamSlot "callback"
             (Tnamed "MTContactCallbackFunction"))
     (slots MultitouchSupport_h)
  /\ passed_as MultitouchSupport_h (Tnamed "MTContactCallbackFunction")
     = Some Spointer.
Proof.
  assert (Hin : In (mkSlot "MTRegisterContactFrameCallback" ParamSlot
                           "callback" (Tnamed "MTContactCallbackFunction"))
                   (slots MultitouchSupport_h))
    by (simpl; tauto).
  split; [exact Hin |].
  destruct (X10_parameters_are_scalars _ Hin eq_refl) as [H | [H | H]];
    [discriminate H | discriminate H | exact H].
Defined.

(** X11: one function only has a declared result that may be absent, and
    one function only hands its result over to the caller, who has to
    release it: in both cases [MTDeviceCreateList], which takes no
    parameter and returns a [CFArrayRef] marked [_Nullable] and
    [CF_RETURNS_RETAINED].  The result of no other function needs a null
    check or a release. *)
Theorem X11_only_list_devices_result_is_optional_or_owned (p : prototype) :
  In p (prototypes MultitouchSupport_h) ->
  fn_ret_null p = Nullable \/ fn_ownership p = ReturnsRetained ->
  p = MTDeviceCreateList
  /\ fn_params p = []
  /\ result_of p = Optional (Tnamed "CFArrayRef")
  /\ fn_ret_null p = Nullable
  /\ fn_ownership p = ReturnsRetained.
Proof.
  intros Hin H. simpl in Hin.
  repeat (destruct Hin as [<- | Hin];
          [first [ repeat split; reflexivity
                 | destruct H as [H | H]; discriminate H ] |]).
  contradiction.
Qed.

(** [MTDeviceCreateList] meets the hypotheses of X11. *)
Lemma X11_only_list_devices_result_is_optional_or_owned_witness :
  In MTDeviceCreateList (prototypes MultitouchSupport_h)
  /\ (fn_ret_null MTDeviceCreateList = Nullable
      \/ fn_ownership MTDeviceCreateList = ReturnsRetained)
  /\ fn_params MTDeviceCreateList = [].
Proof.
  assert (Hin : In MTDeviceCreateList (prototypes MultitouchSupport_h))
    by (simpl; tauto).
  split; [exact Hin |]. split; [left; reflexivity |].
  exact (proj1 (proj2 (X11_only_list_devices_result_is_optional_or_owned
                         MTDeviceCreateList Hin (or_introl eq_refl)))).
Defined.
